(** * The kernel entry points of software/kernel/main.c

    [kernel_main] is the code hardware thread 0 runs after reset and
    [thread_n_main] the code every other hardware thread runs once it is
    released.  Both talk to the rest of the kernel (vm_init, kmalloc,
    kprintf), to memory through volatile pointers and to the processor
    (control registers), and both end in [for (;;) ;].  They are embedded
    as interaction trees over one event per external operation; an
    executable runner gives the finite observations of a tree against an
    environment that answers the events. *)

From Stdlib Require Import ZArith String Ascii List Bool Lia.
From ITree Require Import ITree.
Import ListNotations.
Import ITreeNotations.
Local Open Scope itree_scope.
Local Open Scope string_scope.
Local Open Scope list_scope.
Local Open Scope Z_scope.

(** ** Operations the entry points perform *)

(** One constructor per operation of main.c that leaves the function:
    the three calls, the volatile store and load through a 32-bit pointer,
    and the control-register builtin.  The index is the type of the value
    the operation hands back. *)
Variant kernelE : Type -> Type :=
| VmInit : kernelE unit
| Kprintf (fmt : string) (args : list Z) : kernelE unit
| Kmalloc (size : Z) : kernelE Z
| Store (addr val : Z) : kernelE unit
| Load (addr : Z) : kernelE Z
| ReadControlReg (idx : Z) : kernelE Z.

(** The line feed the C literals write as backslash-n. *)
Definition newline : ascii := "010"%char.
Definition LF : string := String newline EmptyString.

(** [for (;;) ;] : an empty body, repeated. *)
Definition idle_loop : itree kernelE unit := ITree.forever (Ret tt).

(** main.c, lines 25-45.  The statement of line 42 is a comment in the
    source and so has no counterpart here. *)
Definition kernel_main : itree kernelE unit :=
  ITree.trigger VmInit ;;
  ITree.trigger (Kprintf ("Hello kernel land" ++ LF)%string []) ;;
  block <- ITree.trigger (Kmalloc 0x1000) ;;
  ITree.trigger (Store block 0xabcdef12) ;;
  v <- ITree.trigger (Load block) ;;
  ITree.trigger (Kprintf ("%08x" ++ LF)%string [v]) ;;
  ITree.trigger (Store 0xffff0100 0xffffffff) ;;
  idle_loop.

(** main.c, lines 47-52. *)
Definition thread_n_main : itree kernelE unit :=
  tid <- ITree.trigger (ReadControlReg 0) ;;
  ITree.trigger (Kprintf "%d" [tid]) ;;
  idle_loop.

(** ** Finite observations of a run *)

(** An operation as it shows in a run: issued, and answered with [Some x]
    when it handed control back, [None] when it never did (a callee that
    halts, an access that traps). *)
Variant entry : Type :=
| Ev {X : Type} (e : kernelE X) (r : option X).

Variant outcome : Type :=
| Returned (r : unit)
| Blocked
| Running (t : itree kernelE unit).

Record result (St : Type) : Type := mkResult {
  trace : list entry;
  outcome_of : outcome;
  final : St
}.
Arguments mkResult {St}.
Arguments trace {St}.
Arguments outcome_of {St}.
Arguments final {St}.

(** What surrounds the entry point: a state and, for every operation, either
    an answer and a new state or no answer at all. *)
Definition handler (St : Type) : Type :=
  forall X, kernelE X -> St -> option (X * St).

Definition issued {St} (e : entry) (r : result St) : result St :=
  mkResult (e :: trace r) (outcome_of r) (final r).

(** [run h fuel s t] takes at most [fuel] steps of [t] from state [s]; one
    step is one operation or one turn of a loop. *)
Fixpoint run {St} (h : handler St) (fuel : nat) (s : St)
    (t : itree kernelE unit) : result St :=
  match fuel with
  | O => mkResult [] (Running t) s
  | S n =>
      match observe t with
      | RetF r => mkResult [] (Returned r) s
      | TauF t' => run h n s t'
      | VisF e k =>
          match h _ e s with
          | None => mkResult [Ev e None] Blocked s
          | Some (x, s') => issued (Ev e (Some x)) (run h n s' (k x))
          end
      end
  end.

(** An environment without state that answers every call, hands out
    [block] from kmalloc, [val] from every load and [tid] from every
    control register. *)
Definition oracle (block val tid : Z) : handler unit :=
  fun X e s =>
    match e in kernelE X return option (X * unit) with
    | VmInit => Some (tt, s)
    | Kprintf _ _ => Some (tt, s)
    | Kmalloc _ => Some (block, s)
    | Store _ _ => Some (tt, s)
    | Load _ => Some (val, s)
    | ReadControlReg _ => Some (tid, s)
    end.

(** ** Reading entries *)

(** The address the boot sequence stores to in order to start the other
    hardware threads (line 40), and the null pointer. *)
Definition thread_enable_reg : Z := 0xffff0100.
Definition NULL : Z := 0.

(** An operation without the typing of its answer. *)
Variant op : Type :=
| OpVmInit
| OpKprintf (fmt : string) (args : list Z)
| OpKmalloc (size : Z)
| OpStore (addr val : Z)
| OpLoad (addr : Z)
| OpReadControlReg (idx : Z).

Definition op_of {X} (e : kernelE X) : op :=
  match e with
  | VmInit => OpVmInit
  | Kprintf fmt args => OpKprintf fmt args
  | Kmalloc size => OpKmalloc size
  | Store addr val => OpStore addr val
  | Load addr => OpLoad addr
  | ReadControlReg idx => OpReadControlReg idx
  end.

(** The word an answer carries; the calls that hand back nothing count as 0. *)
Definition word_of {X} (e : kernelE X) : X -> Z :=
  match e in kernelE X return X -> Z with
  | VmInit => fun _ => 0
  | Kprintf _ _ => fun _ => 0
  | Kmalloc _ => fun p => p
  | Store _ _ => fun _ => 0
  | Load _ => fun v => v
  | ReadControlReg _ => fun v => v
  end.

Definition flat (en : entry) : op * option Z :=
  match en with
  | Ev e r => (op_of e, option_map (word_of e) r)
  end.

Definition is_store (en : entry) : bool :=
  match fst (flat en) with
  | OpStore _ _ => true
  | _ => false
  end.

Definition is_store_to (a : Z) (en : entry) : bool :=
  match fst (flat en) with
  | OpStore a' _ => a' =? a
  | _ => false
  end.

(** A store to or a load from address [a]. *)
Definition is_access_to (a : Z) (en : entry) : bool :=
  match fst (flat en) with
  | OpStore a' _ => a' =? a
  | OpLoad a' => a' =? a
  | _ => false
  end.

Definition count_stores_to (a : Z) (tr : list entry) : nat :=
  length (filter (is_store_to a) tr).

(** The operations of a boot in which every call returned, with [block]
    the pointer kmalloc handed out and [v] the word the load produced. *)
Definition boot_script (block v : Z) : list entry :=
  [ Ev VmInit (Some tt);
    Ev (Kprintf ("Hello kernel land" ++ LF)%string []) (Some tt);
    Ev (Kmalloc 0x1000) (Some block);
    Ev (Store block 0xabcdef12) (Some tt);
    Ev (Load block) (Some v);
    Ev (Kprintf ("%08x" ++ LF)%string [v]) (Some tt);
    Ev (Store 0xffff0100 0xffffffff) (Some tt) ].

Definition worker_script (tid : Z) : list entry :=
  [ Ev (ReadControlReg 0) (Some tid);
    Ev (Kprintf "%d" [tid]) (Some tt) ].

Definition unanswered (e : entry) : entry :=
  match e with Ev e _ => Ev e None end.

(** The three ways a run against [script] can look after [fuel] steps:
    stopped at call number [k] that never returned, out of fuel before the
    end of the script, or past the script and inside the final loop. *)
Variant follows {St} (script : list entry) (fuel : nat) (r : result St) : Prop :=
| follows_blocked (k : nat) (e : entry) :
    (k < fuel)%nat ->
    nth_error script k = Some e ->
    trace r = firstn k script ++ [unanswered e] ->
    outcome_of r = Blocked ->
    follows script fuel r
| follows_short (t : itree kernelE unit) :
    (fuel <= length script)%nat ->
    trace r = firstn fuel script ->
    outcome_of r = Running t ->
    follows script fuel r
| follows_idle :
    (length script < fuel)%nat ->
    trace r = script ->
    outcome_of r = Running idle_loop ->
    follows script fuel r.


(** ** A machine to run on *)

Definition wrap32 (x : Z) : Z := x mod 2 ^ 32.

(** The character for digit [d], for bases up to sixteen. *)
Definition digit_char (d : Z) : ascii :=
  match String.get (Z.to_nat d) "0123456789abcdef" with
  | Some c => c
  | None => "?"%char
  end.

(** The digits of [v] in [base], most significant first, in front of [acc];
    at most [n] of them and at least one. *)
Fixpoint digits (base : Z) (n : nat) (v : Z) (acc : string) : string :=
  match n with
  | O => acc
  | S n' =>
      let acc' := String (digit_char (v mod base)) acc in
      if v / base =? 0 then acc' else digits base n' (v / base) acc'
  end.

Fixpoint fill (c : ascii) (n : nat) : string :=
  match n with
  | O => EmptyString
  | S n' => String c (fill c n')
  end.

Definition pad (zero : bool) (width : nat) (s : string) : string :=
  (fill (if zero then "0" else " ")%char (width - String.length s) ++ s)%string.

Definition render_x (a : Z) : string := digits 16 8 (wrap32 a) EmptyString.

Definition render_d (a : Z) : string :=
  if wrap32 a <? 2 ^ 31 then digits 10 10 (wrap32 a) EmptyString
  else String "-" (digits 10 10 (2 ^ 32 - wrap32 a) EmptyString).

Definition is_digit (c : ascii) : bool :=
  (Nat.leb 48 (nat_of_ascii c) && Nat.leb (nat_of_ascii c) 57)%bool.

Variant fstate : Type :=
| Text
| Spec (zero : bool) (width : nat).

(** Modelled from the spec: kprintf (declared in libc.h) is not part of
    main.c.  The spec describes it as a format-string-and-arguments
    primitive, used for a literal string, for a 32-bit value in fixed-width
    hexadecimal and for an integer with no explicit width.  Only what the two
    entry points use is modelled: literal text, and the conversions [x] and
    [d] with an optional [0] flag and a decimal width, each taking one 32-bit
    argument; any other character after a percent sign is copied. *)
Fixpoint kformat_from (st : fstate) (fmt : string) (args : list Z) : string :=
  match fmt with
  | EmptyString => EmptyString
  | String c rest =>
      match st with
      | Text =>
          if Ascii.eqb c "%" then kformat_from (Spec false 0) rest args
          else String c (kformat_from Text rest args)
      | Spec zero width =>
          if (Ascii.eqb c "0" && Nat.eqb width 0)%bool then
            kformat_from (Spec true 0) rest args
          else if is_digit c then
            kformat_from (Spec zero (10 * width + (nat_of_ascii c - 48))) rest args
          else if Ascii.eqb c "x" then
            match args with
            | a :: args' =>
                (pad zero width (render_x a) ++ kformat_from Text rest args')%string
            | [] => kformat_from Text rest []
            end
          else if Ascii.eqb c "d" then
            match args with
            | a :: args' =>
                (pad zero width (render_d a) ++ kformat_from Text rest args')%string
            | [] => kformat_from Text rest []
            end
          else String c (kformat_from Text rest args)
      end
  end.

Definition kformat (fmt : string) (args : list Z) : string :=
  kformat_from Text fmt args.

(** The text the kprintf calls of a run put out, in order. *)
Fixpoint output_of (tr : list entry) : string :=
  match tr with
  | [] => EmptyString
  | en :: tr' =>
      match fst (flat en) with
      | OpKprintf fmt args => (kformat fmt args ++ output_of tr')%string
      | _ => output_of tr'
      end
  end.

Fixpoint count_char (c : ascii) (s : string) : nat :=
  match s with
  | EmptyString => O
  | String c' s' => ((if Ascii.eqb c' c then 1 else 0) + count_char c s')%nat
  end.

(** Eight hexadecimal digits, whatever the value: the fixed-width form. *)
Fixpoint fixed_hex (n : nat) (w : Z) (acc : string) : string :=
  match n with
  | O => acc
  | S n' => fixed_hex n' (w / 16) (String (digit_char (w mod 16)) acc)
  end.

Definition is_lower_hex (c : ascii) : bool :=
  (is_digit c || (Nat.leb 97 (nat_of_ascii c) && Nat.leb (nat_of_ascii c) 102))%bool.

Fixpoint all_chars (p : ascii -> bool) (s : string) : bool :=
  match s with
  | EmptyString => true
  | String c s' => (p c && all_chars p s')%bool
  end.

(** Modelled from the spec: the memory kmalloc (kernel_heap.h) hands out
    and the virtual-memory set-up of vm_init (vm.h) are not part of main.c.
    The spec describes the block as mapped memory that is readable and
    writable through the address it was written at.  Memory is a byte at
    every mapped address; a 32-bit access touches four consecutive bytes,
    least significant first, and does not complete when one of them is not
    mapped.  A store to the thread-enable address that is not backed by
    memory reaches the register. *)
Record machine : Type := mkMachine {
  ram : Z -> option Z;
  console : string;
  enabled : list Z;
  creg : Z -> Z
}.

Definition poke (m : machine) (a b : Z) : machine :=
  mkMachine (fun x => if x =? a then Some b else ram m x)
            (console m) (enabled m) (creg m).

Definition byte (v i : Z) : Z := (v / 2 ^ (8 * i)) mod 256.

Definition store32 (m : machine) (a v : Z) : option machine :=
  match ram m a, ram m (a + 1), ram m (a + 2), ram m (a + 3) with
  | Some _, Some _, Some _, Some _ =>
      Some (poke (poke (poke (poke m a (byte v 0)) (a + 1) (byte v 1))
                       (a + 2) (byte v 2)) (a + 3) (byte v 3))
  | _, _, _, _ => None
  end.

Definition load32 (m : machine) (a : Z) : option Z :=
  match ram m a, ram m (a + 1), ram m (a + 2), ram m (a + 3) with
  | Some b0, Some b1, Some b2, Some b3 =>
      Some (b0 + 2 ^ 8 * b1 + 2 ^ 16 * b2 + 2 ^ 24 * b3)
  | _, _, _, _ => None
  end.

Definition emit (m : machine) (text : string) : machine :=
  mkMachine (ram m) (console m ++ text)%string (enabled m) (creg m).

Definition release (m : machine) (mask : Z) : machine :=
  mkMachine (ram m) (console m) (enabled m ++ [mask]) (creg m).

(** [size] bytes from [p] on are mapped. *)
Definition mapped_block (m : machine) (p size : Z) : Prop :=
  forall i, 0 <= i < size -> ram m (p + i) <> None.

Section Machine.
(** The two collaborators whose insides the entry points do not see: each
    either hands control back with a new machine state or never does. *)
Variable vm_init : machine -> option machine.
Variable kmalloc : Z -> machine -> option (Z * machine).

Definition hw : handler machine :=
  fun X e m =>
    match e in kernelE X return option (X * machine) with
    | VmInit => option_map (pair tt) (vm_init m)
    | Kprintf fmt args => Some (tt, emit m (kformat fmt args))
    | Kmalloc size => kmalloc size m
    | Store a v =>
        match store32 m a v with
        | Some m' => Some (tt, m')
        | None =>
            if a =? thread_enable_reg then Some (tt, release m v) else None
        end
    | Load a => option_map (fun v => (v, m)) (load32 m a)
    | ReadControlReg idx => Some (creg m idx, m)
    end.
End Machine.

(** An allocator that hands out the page at [p] when all of it is mapped
    and the null pointer otherwise, and a vm_init that changes nothing. *)
Definition vm_init_ok (m : machine) : option machine := Some m.

Definition kmalloc_at (p : Z) (size : Z) (m : machine) : option (Z * machine) :=
  if forallb (fun i => match ram m (p + Z.of_nat i) with Some _ => true | None => false end)
             (seq 0 (Z.to_nat size))
  then Some (p, m) else Some (NULL, m).

(** A machine whose memory is the zeroed range from [lo] up to [hi]. *)
Definition flat_machine (lo hi : Z) : machine :=
  mkMachine (fun a => if (lo <=? a) && (a <? hi) then Some 0 else None)
            EmptyString [] (fun _ => 0).

(** ** The allocation-failure reading the boot sequence is checked against *)

(** Once kmalloc has handed back the null pointer, nothing is stored or
    loaded through it and the thread-enable register is not written. *)
Definition failed_allocation_stops_boot {St} (h : handler St) (fuel : nat) (s : St) : Prop :=
  let tr := trace (run h fuel s kernel_main) in
  In (Ev (Kmalloc 0x1000) (Some NULL)) tr ->
  (forall e, In e tr -> is_access_to NULL e = false) /\
  (forall e, In e tr -> is_store_to thread_enable_reg e = false).

(** ** Kinds of operation *)

Variant kind : Type :=
| KVmInit | KKprintf | KKmalloc | KStore | KLoad | KReadControlReg.

Definition kind_of (en : entry) : kind :=
  match fst (flat en) with
  | OpVmInit => KVmInit
  | OpKprintf _ _ => KKprintf
  | OpKmalloc _ => KKmalloc
  | OpStore _ _ => KStore
  | OpLoad _ => KLoad
  | OpReadControlReg _ => KReadControlReg
  end.



(** A kmalloc that never hands control back. *)
Definition kmalloc_hangs (size : Z) (m : machine) : option (Z * machine) := None.

(** * Properties *)

(** ** Unfolding the runner *)

Lemma idle_loop_turn : observe idle_loop = TauF idle_loop.
Proof. reflexivity. Qed.

(** The loop only ever turns: it issues nothing and stays itself. *)
Lemma idle_loop_spins {St} (h : handler St) (n : nat) (s : St) :
  run h n s idle_loop = mkResult [] (Running idle_loop) s.
Proof.
  induction n as [|n IH]; [reflexivity|].
  change (run h (S n) s idle_loop) with (run h n s idle_loop). exact IH.
Qed.

(** One call: the operation is issued, and the rest runs on the answer. *)
Lemma run_call {St} (h : handler St) (n : nat) (s : St)
    {X} (e : kernelE X) (k : X -> itree kernelE unit) :
  run h (S n) s (ITree.bind (ITree.trigger e) k) =
  match h X e s with
  | None => mkResult [Ev e None] Blocked s
  | Some (x, s') => issued (Ev e (Some x)) (run h n s' (ITree.bind (Ret x) k))
  end.
Proof. reflexivity. Qed.

Lemma run_ret_bind {St} (h : handler St) (n : nat) (s : St)
    {X} (x : X) (k : X -> itree kernelE unit) :
  run h (S n) s (ITree.bind (Ret x) k) = run h (S n) s (k x).
Proof. reflexivity. Qed.

Ltac blocked_at k :=
  eapply (follows_blocked _ _ _ k); [simpl; lia | reflexivity | reflexivity | reflexivity].

Ltac out_of_fuel :=
  eapply follows_short; [simpl; lia | reflexivity | reflexivity].

(** Advance the run by one call of the program under [run]. *)
Ltac call_as x s' :=
  rewrite ?run_ret_bind; rewrite run_call;
  match goal with
  | |- context [match ?h ?X ?e ?s with _ => _ end] =>
      destruct (h X e s) as [[x s']|]
  end.

Lemma kernel_main_follows {St} (h : handler St) (fuel : nat) (s : St) :
  exists block v, follows (boot_script block v) fuel (run h fuel s kernel_main).
Proof.
  unfold kernel_main.
  destruct fuel as [|fuel]; [exists 0, 0; out_of_fuel|].
  call_as u s1; [destruct u|exists 0, 0; blocked_at 0%nat].
  destruct fuel as [|fuel]; [exists 0, 0; out_of_fuel|].
  call_as u s2; [destruct u|exists 0, 0; blocked_at 1%nat].
  destruct fuel as [|fuel]; [exists 0, 0; out_of_fuel|].
  call_as block s3; [|exists 0, 0; blocked_at 2%nat].
  destruct fuel as [|fuel]; [exists block, 0; out_of_fuel|].
  call_as u s4; [destruct u|exists block, 0; blocked_at 3%nat].
  destruct fuel as [|fuel]; [exists block, 0; out_of_fuel|].
  call_as v s5; [|exists block, 0; blocked_at 4%nat].
  destruct fuel as [|fuel]; [exists block, v; out_of_fuel|].
  call_as u s6; [destruct u|exists block, v; blocked_at 5%nat].
  destruct fuel as [|fuel]; [exists block, v; out_of_fuel|].
  call_as u s7; [destruct u|exists block, v; blocked_at 6%nat].
  exists block, v.
  destruct fuel as [|fuel]; [out_of_fuel|].
  rewrite run_ret_bind.
  change (run h (S fuel) s7 idle_loop) with (run h fuel s7 idle_loop).
  rewrite idle_loop_spins.
  eapply follows_idle; [simpl; lia | reflexivity | reflexivity].
Qed.

Lemma thread_n_main_follows {St} (h : handler St) (fuel : nat) (s : St) :
  exists tid, follows (worker_script tid) fuel (run h fuel s thread_n_main).
Proof.
  unfold thread_n_main.
  destruct fuel as [|fuel]; [exists 0; out_of_fuel|].
  call_as tid s1; [|exists 0; blocked_at 0%nat].
  destruct fuel as [|fuel]; [exists tid; out_of_fuel|].
  call_as u s2; [destruct u|exists tid; blocked_at 1%nat].
  exists tid.
  destruct fuel as [|fuel]; [out_of_fuel|].
  rewrite run_ret_bind.
  change (run h (S fuel) s2 idle_loop) with (run h fuel s2 idle_loop).
  rewrite idle_loop_spins.
  eapply follows_idle; [simpl; lia | reflexivity | reflexivity].
Qed.

(** ** What follows from running along a script *)

Section Follows.
Context {St : Type} (script : list entry) (fuel : nat) (r : result St).
Hypothesis Hfollows : follows script fuel r.

Lemma follows_not_returned (x : unit) : outcome_of r <> Returned x.
Proof. destruct Hfollows as [k e _ _ _ Ho|t _ _ Ho|_ _ Ho]; rewrite Ho; discriminate. Qed.

(** A run in which nothing blocked and that was given more steps than the
    script has calls went through the whole script, into the loop. *)
Lemma follows_complete :
  (length script < fuel)%nat -> outcome_of r <> Blocked ->
  trace r = script /\ outcome_of r = Running idle_loop.
Proof.
  intros Hlen Hnb.
  destruct Hfollows as [k e _ _ _ Ho|t Hle _ _|_ Htr Ho]; [congruence|lia|auto].
Qed.

(** Entry number [i] of the run is entry number [i] of the script, except
    that the last entry of a run may be a call still waiting. *)
Lemma follows_nth (i : nat) (e : entry) :
  nth_error (trace r) i = Some e ->
  exists e', nth_error script i = Some e' /\
             (e = e' \/ (e = unanswered e' /\ length (trace r) = S i)).
Proof.
  intros Hi.
  destruct Hfollows as [k e0 Hk Hnth Htr _|t _ Htr _|_ Htr _].
  - assert (Hlen : length (firstn k script) = k).
    { apply firstn_length_le. apply Nat.lt_le_incl, nth_error_Some. congruence. }
    rewrite Htr in Hi |- *. rewrite nth_error_app, Hlen in Hi.
    destruct (Nat.ltb i k) eqn:Hik.
    + rewrite nth_error_firstn, Hik in Hi. eauto.
    + apply Nat.ltb_ge in Hik.
      destruct (i - k)%nat as [|d] eqn:Hd; simpl in Hi.
      * assert (i = k) by lia. subst i. injection Hi as <-.
        exists e0. split; [assumption|right]. split; [reflexivity|].
        rewrite length_app, Hlen. simpl. lia.
      * destruct d; discriminate.
  - rewrite Htr, nth_error_firstn in Hi.
    destruct (Nat.ltb i fuel); [eauto|discriminate].
  - rewrite Htr in Hi. eauto.
Qed.

(** Everything before a given entry of the run is an answered call of the
    script. *)
Lemma follows_before (pre post : list entry) (e : entry) (j : nat) (e' : entry) :
  trace r = pre ++ e :: post ->
  nth_error pre j = Some e' ->
  nth_error script j = Some e'.
Proof.
  intros Htr Hj.
  assert (Hlt : (j < length pre)%nat) by (apply nth_error_Some; congruence).
  assert (Hi : nth_error (trace r) j = Some e').
  { rewrite Htr, nth_error_app1; assumption. }
  destruct (follows_nth j e' Hi) as (e'' & He'' & [->|[_ Hlen]]); [assumption|].
  rewrite Htr, length_app in Hlen. simpl in Hlen. lia.
Qed.
End Follows.

(** Once a run has reached the loop, more steps change nothing. *)
Lemma run_settled {St} (h : handler St) (n : nat) :
  forall (s : St) (t : itree kernelE unit),
    outcome_of (run h n s t) = Running idle_loop ->
    forall more, run h (n + more) s t = run h n s t.
Proof.
  induction n as [|n IH]; intros s t Ho more.
  - simpl in Ho. injection Ho as ->. simpl. apply idle_loop_spins.
  - simpl in Ho |- *.
    destruct (observe t) as [x|t'|X e k]; [discriminate|auto|].
    destruct (h X e s) as [[x s']|]; [|discriminate].
    simpl in Ho. rewrite (IH _ _ Ho). reflexivity.
Qed.

(** ** The boot sequence *)

(** C1. In every run of kernel_main, under any environment and for any
    number of steps, a store to the thread-enable register is preceded by
    the call to vm_init, and that call has returned. *)
Theorem release_after_vm_init {St} (h : handler St) (fuel : nat) (s : St)
    (pre post : list entry) (e : entry) :
  trace (run h fuel s kernel_main) = pre ++ e :: post ->
  is_store_to thread_enable_reg e = true ->
  In (Ev VmInit (Some tt)) pre.
Proof.
  intros Htr Hst.
  destruct (kernel_main_follows h fuel s) as (block & v & F).
  destruct pre as [|e0 pre'].
  - exfalso.
    assert (Hi : nth_error (trace (run h fuel s kernel_main)) 0 = Some e)
      by (rewrite Htr; reflexivity).
    destruct (follows_nth _ _ _ F _ _ Hi) as (e' & He' & He).
    injection He' as <-.
    destruct He as [->|[-> _]]; discriminate.
  - left. symmetry.
    assert (H0 : nth_error (boot_script block v) 0 = Some e0)
      by (eapply (follows_before _ _ _ F); [exact Htr|reflexivity]).
    injection H0 as H0. exact H0.
Qed.

Lemma release_after_vm_init_witness :
  let h := oracle 0x10000 0xabcdef12 0 in
  let pre := firstn 6 (boot_script 0x10000 0xabcdef12) in
  let e := Ev (Store 0xffff0100 0xffffffff) (Some tt) in
  trace (run h 8 tt kernel_main) = pre ++ e :: [] /\
  is_store_to thread_enable_reg e = true /\
  In (Ev VmInit (Some tt)) pre.
Proof.
  intros h pre e.
  assert (Htr : trace (run h 8 tt kernel_main) = pre ++ e :: []) by reflexivity.
  assert (Hst : is_store_to thread_enable_reg e = true) by reflexivity.
  split; [exact Htr|]. split; [exact Hst|].
  exact (release_after_vm_init h 8 tt pre [] e Htr Hst).
Defined.

(** C5. kernel_main never hands control back: no run of it, under any
    environment and for any number of steps, ends in a return; and a run in
    which every call came back is, after its seven operations, in the final
    loop, which only steps to itself, so that further steps add nothing. *)
Theorem kernel_main_never_returns {St} (h : handler St) (fuel : nat) (s : St) :
  let r := run h fuel s kernel_main in
  (forall x, outcome_of r <> Returned x) /\
  ((7 < fuel)%nat -> outcome_of r <> Blocked ->
     outcome_of r = Running idle_loop /\
     observe idle_loop = TauF idle_loop /\
     forall more, run h (fuel + more) s kernel_main = r).
Proof.
  intros r. subst r.
  destruct (kernel_main_follows h fuel s) as (block & v & F).
  split; [intros x; exact (follows_not_returned _ _ _ F x)|].
  intros Hfuel Hnb.
  destruct (follows_complete _ _ _ F Hfuel Hnb) as [_ Ho].
  split; [exact Ho|]. split; [exact idle_loop_turn|].
  intros more. apply run_settled. exact Ho.
Qed.

Lemma kernel_main_never_returns_witness :
  let h := oracle 0x10000 0xabcdef12 0 in
  (7 < 8)%nat /\
  outcome_of (run h 8 tt kernel_main) <> Blocked /\
  outcome_of (run h 8 tt kernel_main) = Running idle_loop /\
  forall more, run h (8 + more) tt kernel_main = run h 8 tt kernel_main.
Proof.
  intros h.
  assert (Hfuel : (7 < 8)%nat) by lia.
  assert (Hnb : outcome_of (run h 8 tt kernel_main) <> Blocked) by discriminate.
  split; [exact Hfuel|]. split; [exact Hnb|].
  destruct (kernel_main_never_returns h 8 tt) as [_ H].
  destruct (H Hfuel Hnb) as (Ho & _ & Hmore).
  split; [exact Ho|exact Hmore].
Defined.

(** C8. The operations of kernel_main come in one order: vm_init, the
    greeting, kmalloc of one page, the store of the sentinel through the
    returned pointer, the load through it, the print of the loaded word, the
    store to the thread-enable register, and then the loop.  Every run is an
    initial part of that script, and a run in which every call came back is
    the whole of it. *)
Theorem kernel_main_order {St} (h : handler St) (fuel : nat) (s : St) :
  let r := run h fuel s kernel_main in
  exists block v,
    (forall i e, nth_error (trace r) i = Some e ->
       exists e', nth_error (boot_script block v) i = Some e' /\
                  (e = e' \/ (e = unanswered e' /\ length (trace r) = S i))) /\
    ((7 < fuel)%nat -> outcome_of r <> Blocked ->
       trace r = boot_script block v /\ outcome_of r = Running idle_loop).
Proof.
  intros r. subst r.
  destruct (kernel_main_follows h fuel s) as (block & v & F).
  exists block, v. split.
  - intros i e. apply (follows_nth _ _ _ F).
  - apply (follows_complete _ _ _ F).
Qed.

Lemma kernel_main_order_witness :
  let h := oracle 0x10000 0xabcdef12 0 in
  (7 < 8)%nat /\
  outcome_of (run h 8 tt kernel_main) <> Blocked /\
  exists block v,
    trace (run h 8 tt kernel_main) = boot_script block v /\
    outcome_of (run h 8 tt kernel_main) = Running idle_loop.
Proof.
  intros h.
  assert (Hfuel : (7 < 8)%nat) by lia.
  assert (Hnb : outcome_of (run h 8 tt kernel_main) <> Blocked) by discriminate.
  split; [exact Hfuel|]. split; [exact Hnb|].
  destruct (kernel_main_order h 8 tt) as (block & v & _ & H).
  exists block, v. exact (H Hfuel Hnb).
Defined.

(** ** The released threads *)

(** C6. thread_n_main reads control register 0 through the builtin (not a
    load), passes the value it got to kprintf with the format %d, and then
    loops: every run is an initial part of that script, a run in which both
    operations came back is the whole of it followed by the loop, and no run
    ends in a return. *)
Theorem thread_n_main_behaviour {St} (h : handler St) (fuel : nat) (s : St) :
  let r := run h fuel s thread_n_main in
  (forall x, outcome_of r <> Returned x) /\
  exists tid,
    (forall i e, nth_error (trace r) i = Some e ->
       exists e', nth_error (worker_script tid) i = Some e' /\
                  (e = e' \/ (e = unanswered e' /\ length (trace r) = S i))) /\
    ((2 < fuel)%nat -> outcome_of r <> Blocked ->
       trace r = [ Ev (ReadControlReg 0) (Some tid); Ev (Kprintf "%d" [tid]) (Some tt) ] /\
       outcome_of r = Running idle_loop /\
       forall more, run h (fuel + more) s thread_n_main = r).
Proof.
  intros r. subst r.
  destruct (thread_n_main_follows h fuel s) as (tid & F).
  split; [intros x; exact (follows_not_returned _ _ _ F x)|].
  exists tid. split.
  - intros i e. apply (follows_nth _ _ _ F).
  - intros Hfuel Hnb.
    destruct (follows_complete _ _ _ F Hfuel Hnb) as [Htr Ho].
    split; [exact Htr|]. split; [exact Ho|].
    intros more. apply run_settled. exact Ho.
Qed.

Lemma thread_n_main_behaviour_witness :
  let h := oracle 0 0 5 in
  (2 < 3)%nat /\
  outcome_of (run h 3 tt thread_n_main) <> Blocked /\
  exists tid,
    trace (run h 3 tt thread_n_main) =
      [ Ev (ReadControlReg 0) (Some tid); Ev (Kprintf "%d" [tid]) (Some tt) ] /\
    outcome_of (run h 3 tt thread_n_main) = Running idle_loop.
Proof.
  intros h.
  assert (Hfuel : (2 < 3)%nat) by lia.
  assert (Hnb : outcome_of (run h 3 tt thread_n_main) <> Blocked) by discriminate.
  split; [exact Hfuel|]. split; [exact Hnb|].
  destruct (thread_n_main_behaviour h 3 tt) as (_ & tid & _ & H).
  exists tid. destruct (H Hfuel Hnb) as (Htr & Ho & _). split; [exact Htr|exact Ho].
Defined.

(** ** The smoke test is only reported *)

Ltac in_script H :=
  simpl in H;
  repeat (destruct H as [H|H];
          [apply (f_equal flat) in H; simpl in H; try discriminate H|]);
  try contradiction H.

(** C7. When the word loaded back through the block differs from the one
    stored, the boot sequence goes on all the same: it prints the loaded
    word, stores to the thread-enable register and enters the loop. *)
Theorem mismatch_not_fatal {St} (h : handler St) (fuel : nat) (s : St) (block v : Z) :
  let r := run h fuel s kernel_main in
  (7 < fuel)%nat ->
  outcome_of r <> Blocked ->
  In (Ev (Load block) (Some v)) (trace r) ->
  v <> 0xabcdef12 ->
  trace r = boot_script block v /\ outcome_of r = Running idle_loop.
Proof.
  intros r Hfuel Hnb Hin _. subst r.
  destruct (kernel_main_follows h fuel s) as (block' & v' & F).
  destruct (follows_complete _ _ _ F Hfuel Hnb) as [Htr Ho].
  split; [|exact Ho].
  rewrite Htr in Hin |- *.
  in_script Hin.
  injection Hin as -> ->. reflexivity.
Qed.

Lemma mismatch_not_fatal_witness :
  let h := oracle 0x10000 0 0 in
  (7 < 8)%nat /\
  outcome_of (run h 8 tt kernel_main) <> Blocked /\
  In (Ev (Load 0x10000) (Some 0)) (trace (run h 8 tt kernel_main)) /\
  0 <> 0xabcdef12 /\
  trace (run h 8 tt kernel_main) = boot_script 0x10000 0 /\
  outcome_of (run h 8 tt kernel_main) = Running idle_loop.
Proof.
  intros h.
  assert (Hfuel : (7 < 8)%nat) by lia.
  assert (Hnb : outcome_of (run h 8 tt kernel_main) <> Blocked) by discriminate.
  assert (Hin : In (Ev (Load 0x10000) (Some 0)) (trace (run h 8 tt kernel_main)))
    by (vm_compute; tauto).
  assert (Hne : 0 <> 0xabcdef12) by discriminate.
  repeat (split; [assumption|]).
  exact (mismatch_not_fatal h 8 tt 0x10000 0 Hfuel Hnb Hin Hne).
Defined.

(** ** Stores *)

(** A run is a number of answered calls of the script, possibly followed by
    the next call left waiting. *)
Lemma follows_prefix {St} (script : list entry) (fuel : nat) (r : result St) :
  follows script fuel r ->
  exists k, (k <= length script)%nat /\
    ((trace r = firstn k script /\ (outcome_of r = Blocked -> False)) \/
     (exists e, nth_error script k = Some e /\
                trace r = firstn k script ++ [unanswered e] /\
                outcome_of r = Blocked)).
Proof.
  intros [k e Hk Hnth Htr Ho|t Hle Htr Ho|Hlt Htr Ho].
  - exists k. split.
    + apply Nat.lt_le_incl, nth_error_Some. congruence.
    + right. exists e. auto.
  - exists fuel. split; [exact Hle|left]. split; [exact Htr|congruence].
  - exists (length script). split; [reflexivity|left].
    rewrite firstn_all. split; [exact Htr|congruence].
Qed.

(** All the shapes the trace of a run along a script of known length can
    have, one goal each. *)
Ltac shapes F k Htr :=
  let Hk := fresh "Hk" in
  let e := fresh "e" in
  let He := fresh "He" in
  let Hnb := fresh "Hnb" in
  let Ho := fresh "Ho" in
  destruct (follows_prefix _ _ _ F) as (k & Hk & [[Htr Hnb]|(e & He & Htr & Ho)]);
  simpl in Hk;
  repeat (destruct k as [|k]; [|try (exfalso; lia)]);
  simpl in Htr;
  try (simpl in He; first [discriminate He | injection He as <-]; simpl in Htr).

Lemma thread_enable_reg_eqb : (0xffff0100 =? thread_enable_reg) = true.
Proof. reflexivity. Qed.

(** C4. The thread-enable register is written once per boot, with all 32
    bits set: in a run in which kmalloc did not hand out the address of the
    register itself, at most one store goes to that address, it is the store
    of 0xffffffff to 0xffff0100, a run in which every call came back has
    exactly one, and thread_n_main stores nothing there. *)
Theorem thread_enable_written_once {St} (h : handler St) (fuel : nat) (s : St) :
  let r := run h fuel s kernel_main in
  ~ In (Ev (Kmalloc 0x1000) (Some thread_enable_reg)) (trace r) ->
  (count_stores_to thread_enable_reg (trace r) <= 1)%nat /\
  (forall e, In e (trace r) -> is_store_to thread_enable_reg e = true ->
     fst (flat e) = OpStore 0xffff0100 0xffffffff) /\
  ((7 < fuel)%nat -> outcome_of r <> Blocked ->
     count_stores_to thread_enable_reg (trace r) = 1%nat) /\
  (forall fuel' s',
     count_stores_to thread_enable_reg (trace (run h fuel' s' thread_n_main)) = 0%nat).
Proof.
  intros r Hk. subst r.
  destruct (kernel_main_follows h fuel s) as (block & v & F).
  assert (Hblock : In (Ev (Kmalloc 0x1000) (Some block)) (trace (run h fuel s kernel_main)) ->
                   (block =? thread_enable_reg) = false).
  { intros Hin. apply Z.eqb_neq. intros ->. exact (Hk Hin). }
  clear Hk.
  repeat split.
  - revert Hblock. generalize (run h fuel s kernel_main) F. clear F.
    intros r F Hblock. shapes F k Htr; rewrite Htr in Hblock |- *;
      unfold count_stores_to, is_store_to;
      cbn [filter flat fst op_of unanswered app];
      rewrite ?thread_enable_reg_eqb, ?Hblock by (simpl; tauto);
      cbn [length]; lia.
  - intros e Hin Hst. revert Hblock Hin.
    generalize (run h fuel s kernel_main) F. clear F.
    intros r F Hblock Hin.
    shapes F k Htr; rewrite Htr in Hblock, Hin;
      simpl in Hin;
      repeat (destruct Hin as [<-|Hin]; [try discriminate Hst; try reflexivity|]);
      try contradiction Hin;
      exfalso; unfold is_store_to in Hst; cbn [flat fst op_of] in Hst;
      rewrite Hblock in Hst by (simpl; tauto); discriminate Hst.
  - intros Hfuel Hnb.
    destruct (follows_complete _ _ _ F Hfuel Hnb) as [Htr _].
    rewrite Htr in Hblock |- *.
    unfold count_stores_to, is_store_to;
      cbn [filter flat fst op_of boot_script];
      rewrite ?thread_enable_reg_eqb, ?Hblock by (simpl; tauto). reflexivity.
  - intros fuel' s'.
    destruct (thread_n_main_follows h fuel' s') as (tid & F').
    revert F'. generalize (run h fuel' s' thread_n_main). intros r F'.
    shapes F' k Htr; rewrite Htr; reflexivity.
Qed.

Lemma thread_enable_written_once_witness :
  let h := oracle 0x10000 0xabcdef12 0 in
  ~ In (Ev (Kmalloc 0x1000) (Some thread_enable_reg)) (trace (run h 8 tt kernel_main)) /\
  (7 < 8)%nat /\
  outcome_of (run h 8 tt kernel_main) <> Blocked /\
  count_stores_to thread_enable_reg (trace (run h 8 tt kernel_main)) = 1%nat.
Proof.
  intros h.
  assert (Hk : ~ In (Ev (Kmalloc 0x1000) (Some thread_enable_reg))
                    (trace (run h 8 tt kernel_main))).
  { change (trace (run h 8 tt kernel_main)) with (boot_script 0x10000 0xabcdef12).
    intros Hin. in_script Hin. }
  assert (Hfuel : (7 < 8)%nat) by lia.
  assert (Hnb : outcome_of (run h 8 tt kernel_main) <> Blocked) by discriminate.
  split; [exact Hk|]. split; [exact Hfuel|]. split; [exact Hnb|].
  destruct (thread_enable_written_once h 8 tt Hk) as (_ & _ & H & _).
  exact (H Hfuel Hnb).
Defined.

(** C9. The store that would force a fault (the value 1 to address 1, line
    42) is never issued.  Every store of a run of kernel_main is either the
    store of the sentinel through the pointer kmalloc handed out or the store
    of 0xffffffff to the thread-enable register; so unless kmalloc itself
    handed out address 1, nothing is stored to address 1. *)
Theorem fault_store_never_issued {St} (h : handler St) (fuel : nat) (s : St) :
  let tr := trace (run h fuel s kernel_main) in
  (forall e, In e tr -> is_store e = true ->
     fst (flat e) = OpStore thread_enable_reg 0xffffffff \/
     exists block, In (Ev (Kmalloc 0x1000) (Some block)) tr /\
                   fst (flat e) = OpStore block 0xabcdef12) /\
  (forall e, In e tr -> fst (flat e) <> OpStore 1 1) /\
  (~ In (Ev (Kmalloc 0x1000) (Some 1)) tr ->
   forall e, In e tr -> is_store_to 1 e = false).
Proof.
  intros tr. subst tr.
  destruct (kernel_main_follows h fuel s) as (block & v & F).
  revert F. generalize (run h fuel s kernel_main). intros r F.
  repeat split.
  - intros e Hin Hst.
    shapes F k Htr; rewrite Htr in Hin |- *; simpl in Hin;
      repeat (destruct Hin as [<-|Hin]; [try discriminate Hst|]);
      try contradiction Hin;
      first [ left; reflexivity
            | right; exists block; split; [simpl; tauto|reflexivity] ].
  - intros e Hin.
    shapes F k Htr; rewrite Htr in Hin; simpl in Hin;
      repeat (destruct Hin as [<-|Hin]; [simpl; discriminate|]);
      contradiction Hin.
  - intros Hk e Hin.
    assert (Hblock : In (Ev (Kmalloc 0x1000) (Some block)) (trace r) -> (block =? 1) = false).
    { intros Hb. apply Z.eqb_neq. intros ->. exact (Hk Hb). }
    clear Hk.
    shapes F k Htr; rewrite Htr in Hin, Hblock; simpl in Hin;
      repeat (destruct Hin as [<-|Hin]; [try reflexivity|]);
      try contradiction Hin;
      unfold is_store_to; cbn [flat fst op_of];
      apply Hblock; simpl; tauto.
Qed.

Lemma fault_store_never_issued_witness :
  let h := oracle 0x10000 0xabcdef12 0 in
  ~ In (Ev (Kmalloc 0x1000) (Some 1)) (trace (run h 8 tt kernel_main)) /\
  forall e, In e (trace (run h 8 tt kernel_main)) -> is_store_to 1 e = false.
Proof.
  intros h.
  assert (Hk : ~ In (Ev (Kmalloc 0x1000) (Some 1)) (trace (run h 8 tt kernel_main))).
  { change (trace (run h 8 tt kernel_main)) with (boot_script 0x10000 0xabcdef12).
    intros Hin. in_script Hin. }
  split; [exact Hk|].
  destruct (fault_store_never_issued h 8 tt) as (_ & _ & H).
  exact (H Hk).
Defined.

(** ** A failed allocation *)

(** C3, as stated, fails.  With an allocator that hands back the null
    pointer and memory that answers at address 0, the boot sequence stores and loads through the
    null pointer and goes on to write the thread-enable register. *)
Lemma null_block_is_used :
  ~ failed_allocation_stops_boot (oracle NULL 0 0) 8 tt.
Proof.
  intros H.
  assert (Hin : In (Ev (Kmalloc 0x1000) (Some NULL))
                   (trace (run (oracle NULL 0 0) 8 tt kernel_main)))
    by (vm_compute; tauto).
  destruct (H Hin) as [Hacc _].
  specialize (Hacc (Ev (Store NULL 0xabcdef12) (Some tt))).
  assert (Hst : In (Ev (Store NULL 0xabcdef12) (Some tt))
                   (trace (run (oracle NULL 0 0) 8 tt kernel_main)))
    by (vm_compute; tauto).
  specialize (Hacc Hst). discriminate Hacc.
Qed.

(** C3, as the code has it.  kernel_main does not look at the pointer
    kmalloc hands back.  Whatever that pointer is, the null pointer included,
    the next operation is the store of the sentinel through it, and a run in
    which every call came back goes through the load, the print and the
    store to the thread-enable register.  When the call to kmalloc does not
    come back, the run stops there: nothing is stored or loaded, and the
    thread-enable register is not written. *)
Theorem allocation_result_not_checked {St} (h : handler St) (fuel : nat) (s : St) :
  let r := run h fuel s kernel_main in
  (forall block, In (Ev (Kmalloc 0x1000) (Some block)) (trace r) ->
     ((3 < fuel)%nat -> exists a, In (Ev (Store block 0xabcdef12) a) (trace r)) /\
     ((7 < fuel)%nat -> outcome_of r <> Blocked ->
        exists v, trace r = boot_script block v)) /\
  (In (Ev (Kmalloc 0x1000) None) (trace r) ->
     outcome_of r = Blocked /\
     (forall e, In e (trace r) ->
        match fst (flat e) with OpStore _ _ | OpLoad _ => False | _ => True end) /\
     (forall e, In e (trace r) -> is_store_to thread_enable_reg e = false)).
Proof.
  intros r. subst r.
  destruct (kernel_main_follows h fuel s) as (block' & v & F).
  split.
  - intros block Hin. split.
    + intros Hfuel.
      destruct F as [k e Hk Hnth Htr Ho|t Hle Htr Ho|Hlt Htr Ho].
      * revert Htr Hin. generalize (trace (run h fuel s kernel_main)).
        intros tr Htr Hin.
        assert (Hlt : (k < 7)%nat)
          by (apply (nth_error_Some (boot_script block' v)); congruence).
        repeat (destruct k as [|k];
                [simpl in Hnth; injection Hnth as <-|try (exfalso; lia)]);
          simpl in Htr; subst tr; in_script Hin; injection Hin as <-;
          eexists; simpl; eauto 10.
      * revert Htr Hin. generalize (trace (run h fuel s kernel_main)).
        intros tr Htr Hin.
        simpl in Hle.
        repeat (destruct fuel as [|fuel]; [try (exfalso; lia)|try (exfalso; lia)]);
          simpl in Htr; subst tr; in_script Hin; injection Hin as <-;
          eexists; simpl; eauto 10.
      * rewrite Htr in Hin |- *. in_script Hin. injection Hin as <-.
        eexists; simpl; eauto 10.
    + intros Hfuel Hnb.
      destruct (follows_complete _ _ _ F Hfuel Hnb) as [Htr _].
      rewrite Htr in Hin |- *. in_script Hin. injection Hin as <-.
      exists v. reflexivity.
  - revert F. generalize (run h fuel s kernel_main). intros r F Hin.
    shapes F k Htr; rewrite Htr in Hin |- *; in_script Hin.
    split; [assumption|]. split.
    + intros e Hin'. simpl in Hin'.
      repeat (destruct Hin' as [<-|Hin']; [exact I|]). contradiction Hin'.
    + intros e Hin'. simpl in Hin'.
      repeat (destruct Hin' as [<-|Hin']; [reflexivity|]). contradiction Hin'.
Qed.

Lemma allocation_result_not_checked_witness :
  let h := hw vm_init_ok (kmalloc_at 0x20000) in
  let h' := hw vm_init_ok kmalloc_hangs in
  let m := flat_machine 0x10000 0x11000 in
  In (Ev (Kmalloc 0x1000) (Some NULL)) (trace (run h 8 m kernel_main)) /\
  (3 < 8)%nat /\
  (exists a, In (Ev (Store NULL 0xabcdef12) a) (trace (run h 8 m kernel_main))) /\
  In (Ev (Kmalloc 0x1000) None) (trace (run h' 8 m kernel_main)) /\
  outcome_of (run h' 8 m kernel_main) = Blocked /\
  (forall e, In e (trace (run h' 8 m kernel_main)) ->
     is_store_to thread_enable_reg e = false).
Proof.
  intros h h' m.
  assert (Hin : In (Ev (Kmalloc 0x1000) (Some NULL)) (trace (run h 8 m kernel_main)))
    by (vm_compute; tauto).
  assert (Hfuel : (3 < 8)%nat) by lia.
  assert (Hin' : In (Ev (Kmalloc 0x1000) None) (trace (run h' 8 m kernel_main)))
    by (vm_compute; tauto).
  split; [exact Hin|]. split; [exact Hfuel|].
  destruct (allocation_result_not_checked h 8 m) as [H _].
  destruct (H NULL Hin) as [Hst _].
  split; [exact (Hst Hfuel)|].
  split; [exact Hin'|].
  destruct (allocation_result_not_checked h' 8 m) as [_ H'].
  destruct (H' Hin') as (Ho & _ & Hreg).
  split; [exact Ho|exact Hreg].
Defined.

(** ** Memory *)

Lemma bytes_of_word (v : Z) :
  byte v 0 + 2 ^ 8 * byte v 1 + 2 ^ 16 * byte v 2 + 2 ^ 24 * byte v 3 = wrap32 v.
Proof.
  unfold byte, wrap32.
  change (2 ^ (8 * 0)) with 1. change (2 ^ (8 * 1)) with 256.
  change (2 ^ (8 * 2)) with 65536. change (2 ^ (8 * 3)) with 16777216.
  change (2 ^ 8) with 256. change (2 ^ 16) with 65536.
  change (2 ^ 24) with 16777216. change (2 ^ 32) with 4294967296.
  Z.div_mod_to_equations. lia.
Qed.

Lemma ram_poke (m : machine) (a b x : Z) :
  ram (poke m a b) x = if x =? a then Some b else ram m x.
Proof. reflexivity. Qed.

(** What was stored through a mapped address is what a load through the
    same address gives back. *)
Lemma store32_load32 (m : machine) (a v : Z) :
  mapped_block m a 4 ->
  exists m', store32 m a v = Some m' /\
             load32 m' a = Some (wrap32 v) /\
             console m' = console m /\
             (forall i, ram m i <> None -> ram m' i <> None).
Proof.
  intros Hmap.
  assert (H0 := Hmap 0 ltac:(lia)). rewrite Z.add_0_r in H0.
  assert (H1 := Hmap 1 ltac:(lia)).
  assert (H2 := Hmap 2 ltac:(lia)).
  assert (H3 := Hmap 3 ltac:(lia)).
  unfold store32.
  destruct (ram m a); [|congruence].
  destruct (ram m (a + 1)); [|congruence].
  destruct (ram m (a + 2)); [|congruence].
  destruct (ram m (a + 3)); [|congruence].
  eexists. split; [reflexivity|]. split; [|split].
  - unfold load32. rewrite !ram_poke.
    repeat match goal with
           | |- context [?x =? ?y] => destruct (Z.eqb_spec x y); try lia
           end.
    rewrite bytes_of_word. reflexivity.
  - reflexivity.
  - intros i Hi. rewrite !ram_poke.
    repeat match goal with
           | |- context [?x =? ?y] => destruct (Z.eqb_spec x y); try discriminate
           end.
    exact Hi.
Qed.

(** A boot on the machine in which vm_init came back and kmalloc handed out
    a mapped page: all seven operations come back, and the word loaded is the
    sentinel. *)
Lemma boot_on_machine (vm_init : machine -> option machine)
    (kmalloc : Z -> machine -> option (Z * machine))
    (m0 m1 m2 : machine) (p : Z) (fuel : nat) :
  vm_init m0 = Some m1 ->
  kmalloc 0x1000 (emit m1 (kformat ("Hello kernel land" ++ LF)%string [])) = Some (p, m2) ->
  mapped_block m2 p 0x1000 ->
  (7 < fuel)%nat ->
  let r := run (hw vm_init kmalloc) fuel m0 kernel_main in
  trace r = boot_script p 0xabcdef12 /\
  outcome_of r = Running idle_loop /\
  console (final r) = (console m2 ++ kformat ("%08x" ++ LF) [0xabcdef12])%string.
Proof.
  intros Hvm Hk Hmap Hfuel r. subst r.
  do 8 (destruct fuel as [|fuel]; [exfalso; lia|]). clear Hfuel.
  assert (Hmap4 : mapped_block m2 p 4) by (intros i Hi; apply Hmap; lia).
  destruct (store32_load32 m2 p 0xabcdef12 Hmap4) as (m3 & Hst & Hld & Hcon & _).
  change (wrap32 0xabcdef12) with 0xabcdef12 in Hld.
  unfold kernel_main.
  rewrite run_call. cbn [hw]. rewrite Hvm. cbn [option_map].
  rewrite run_ret_bind, run_call. cbn [hw].
  rewrite run_ret_bind, run_call. cbn [hw]. rewrite Hk.
  rewrite run_ret_bind, run_call. cbn [hw]. rewrite Hst.
  rewrite run_ret_bind, run_call. cbn [hw]. rewrite Hld. cbn [option_map].
  rewrite run_ret_bind, run_call. cbn [hw].
  rewrite run_ret_bind, run_call. cbn [hw].
  set (m4 := emit m3 _).
  assert (Hm4 : exists m5, console m5 = console m4 /\
            match store32 m4 0xffff0100 0xffffffff with
            | Some m' => Some (tt, m')
            | None => if 0xffff0100 =? thread_enable_reg
                      then Some (tt, release m4 0xffffffff) else None
            end = Some (tt, m5)).
  { unfold store32.
    destruct (ram m4 0xffff0100), (ram m4 (0xffff0100 + 1)),
      (ram m4 (0xffff0100 + 2)), (ram m4 (0xffff0100 + 3));
      eexists; (split; [|reflexivity]); reflexivity. }
  destruct Hm4 as (m5 & Hcon5 & ->).
  rewrite run_ret_bind.
  change (run (hw vm_init kmalloc) (S fuel) m5 idle_loop)
    with (run (hw vm_init kmalloc) fuel m5 idle_loop).
  rewrite idle_loop_spins.
  split; [reflexivity|]. split; [reflexivity|].
  cbn [final issued]. rewrite Hcon5. unfold m4. cbn [console emit].
  rewrite Hcon. reflexivity.
Qed.

(** C2. A word stored through a pointer to mapped memory is the word a
    load through the same pointer gives back; so when vm_init came back and
    kmalloc handed out a mapped page, the store of 0xabcdef12 followed by the
    load yields 0xabcdef12, and that is the word kernel_main passes to
    kprintf. *)
Theorem smoke_test_round_trip (vm_init : machine -> option machine)
    (kmalloc : Z -> machine -> option (Z * machine))
    (m0 m1 m2 : machine) (p : Z) (fuel : nat) :
  vm_init m0 = Some m1 ->
  kmalloc 0x1000 (emit m1 (kformat ("Hello kernel land" ++ LF)%string [])) = Some (p, m2) ->
  mapped_block m2 p 0x1000 ->
  (7 < fuel)%nat ->
  let r := run (hw vm_init kmalloc) fuel m0 kernel_main in
  (exists m3, store32 m2 p 0xabcdef12 = Some m3 /\ load32 m3 p = Some 0xabcdef12) /\
  In (Ev (Store p 0xabcdef12) (Some tt)) (trace r) /\
  In (Ev (Load p) (Some 0xabcdef12)) (trace r) /\
  In (Ev (Kprintf ("%08x" ++ LF)%string [0xabcdef12]) (Some tt)) (trace r).
Proof.
  intros Hvm Hk Hmap Hfuel r.
  destruct (boot_on_machine vm_init kmalloc m0 m1 m2 p fuel Hvm Hk Hmap Hfuel)
    as (Htr & _ & _).
  fold r in Htr. rewrite Htr. split.
  - assert (Hmap4 : mapped_block m2 p 4) by (intros i Hi; apply Hmap; lia).
    destruct (store32_load32 m2 p 0xabcdef12 Hmap4) as (m3 & Hst & Hld & _).
    exists m3. split; [exact Hst|exact Hld].
  - simpl. tauto.
Qed.

Lemma flat_machine_mapped (lo hi p size : Z) :
  lo <= p -> p + size <= hi -> mapped_block (flat_machine lo hi) p size.
Proof.
  intros Hlo Hhi i Hi. simpl.
  destruct (Z.leb_spec lo (p + i)); [|lia].
  destruct (Z.ltb_spec (p + i) hi); [|lia].
  discriminate.
Qed.

Lemma smoke_test_round_trip_witness :
  let m0 := flat_machine 0x10000 0x11000 in
  let m2 := emit m0 (kformat ("Hello kernel land" ++ LF)%string []) in
  let r := run (hw vm_init_ok (kmalloc_at 0x10000)) 8 m0 kernel_main in
  vm_init_ok m0 = Some m0 /\
  kmalloc_at 0x10000 0x1000 m2 = Some (0x10000, m2) /\
  mapped_block m2 0x10000 0x1000 /\
  (7 < 8)%nat /\
  In (Ev (Load 0x10000) (Some 0xabcdef12)) (trace r).
Proof.
  intros m0 m2 r.
  assert (Hvm : vm_init_ok m0 = Some m0) by reflexivity.
  assert (Hk : kmalloc_at 0x10000 0x1000 m2 = Some (0x10000, m2)) by (vm_compute; reflexivity).
  assert (Hmap : mapped_block m2 0x10000 0x1000) by (apply flat_machine_mapped; lia).
  assert (Hfuel : (7 < 8)%nat) by lia.
  repeat (split; [assumption|]).
  destruct (smoke_test_round_trip vm_init_ok (kmalloc_at 0x10000) m0 m0 m2 0x10000 8
              Hvm Hk Hmap Hfuel) as (_ & _ & H & _).
  exact H.
Defined.

(** ** What kprintf puts out *)

Lemma append_empty (s : string) : (s ++ EmptyString)%string = s.
Proof. induction s as [|c s IH]; simpl; [reflexivity|rewrite IH; reflexivity]. Qed.

Lemma count_char_append (c : ascii) (s t : string) :
  count_char c (s ++ t)%string = (count_char c s + count_char c t)%nat.
Proof. induction s as [|c' s IH]; simpl; [reflexivity|rewrite IH; lia]. Qed.

(** Whatever the digit, the character for it is not a line feed. *)
Lemma digit_char_not_newline (d : Z) : Ascii.eqb (digit_char d) newline = false.
Proof.
  unfold digit_char. generalize (Z.to_nat d). intros n.
  do 17 (destruct n as [|n]; [reflexivity|]). reflexivity.
Qed.

Lemma digit_char_lower_hex (d : Z) : 0 <= d < 16 -> is_lower_hex (digit_char d) = true.
Proof.
  intros Hd.
  assert (H : d = 0 \/ d = 1 \/ d = 2 \/ d = 3 \/ d = 4 \/ d = 5 \/ d = 6 \/ d = 7 \/
              d = 8 \/ d = 9 \/ d = 10 \/ d = 11 \/ d = 12 \/ d = 13 \/ d = 14 \/ d = 15)
    by lia.
  repeat (destruct H as [->|H]; [reflexivity|]). subst d. reflexivity.
Qed.

Lemma digits_no_newline (base : Z) (n : nat) :
  forall v acc, count_char newline (digits base n v acc) = count_char newline acc.
Proof.
  induction n as [|n IH]; intros v acc; simpl; [reflexivity|].
  destruct (v / base =? 0).
  - simpl. rewrite digit_char_not_newline. reflexivity.
  - rewrite IH. simpl. rewrite digit_char_not_newline. reflexivity.
Qed.

Lemma render_d_no_newline (a : Z) : count_char newline (render_d a) = 0%nat.
Proof.
  unfold render_d. destruct (wrap32 a <? 2 ^ 31).
  - apply digits_no_newline.
  - cbn [count_char]. rewrite digits_no_newline. reflexivity.
Qed.

Lemma render_d_small (a : Z) : 0 <= a < 10 -> render_d a = String (digit_char a) EmptyString.
Proof.
  intros Ha. unfold render_d, wrap32.
  rewrite (Z.mod_small a (2 ^ 32)) by lia.
  destruct (Z.ltb_spec a (2 ^ 31)); [|lia].
  simpl. rewrite Z.mod_small, Z.div_small by lia. reflexivity.
Qed.

Lemma fixed_hex_zero (n : nat) (acc : string) :
  fixed_hex n 0 acc = (fill "0" n ++ acc)%string.
Proof.
  revert acc. induction n as [|n IH]; intros acc; [reflexivity|].
  simpl fixed_hex. change (0 / 16) with 0. change (digit_char (0 mod 16)) with "0"%char.
  rewrite IH. clear IH.
  induction n as [|n IH]; simpl; [reflexivity|].
  simpl in IH. rewrite <- IH. reflexivity.
Qed.

Lemma fixed_hex_length (n : nat) :
  forall w acc, String.length (fixed_hex n w acc) = (n + String.length acc)%nat.
Proof.
  induction n as [|n IH]; intros w acc; simpl; [reflexivity|].
  rewrite IH. simpl. lia.
Qed.

Lemma fixed_hex_chars (n : nat) :
  forall w acc, all_chars is_lower_hex acc = true ->
                all_chars is_lower_hex (fixed_hex n w acc) = true.
Proof.
  induction n as [|n IH]; intros w acc Hacc; simpl; [exact Hacc|].
  apply IH. simpl. rewrite Hacc, digit_char_lower_hex; [reflexivity|].
  apply Z.mod_pos_bound. lia.
Qed.

(** Padding the shortest hexadecimal form with zeros up to [n] places gives
    the fixed-width form. *)
Lemma pad_digits (n : nat) :
  forall w acc, (0 < n)%nat -> 0 <= w < 16 ^ Z.of_nat n ->
    pad true (n + String.length acc) (digits 16 n w acc) = fixed_hex n w acc.
Proof.
  induction n as [|n IH]; intros w acc Hn Hw; [lia|].
  simpl digits. simpl fixed_hex.
  rewrite Nat2Z.inj_succ, Z.pow_succ_r in Hw by lia.
  destruct (Z.eqb_spec (w / 16) 0) as [Hq|Hq].
  - rewrite Hq, fixed_hex_zero. unfold pad. simpl String.length.
    replace (S n + String.length acc - S (String.length acc))%nat with n by lia.
    reflexivity.
  - assert (Hq' : 0 <= w / 16 < 16 ^ Z.of_nat n).
    { split; [apply Z.div_pos; lia|apply Z.div_lt_upper_bound; lia]. }
    assert (Hn' : (0 < n)%nat).
    { destruct n; [|lia]. simpl in Hq'. lia. }
    rewrite <- (IH (w / 16) (String (digit_char (w mod 16)) acc) Hn' Hq').
    simpl String.length. f_equal. lia.
Qed.

Lemma kformat_hex8 (v : Z) :
  kformat ("%08x" ++ LF) [v] = (fixed_hex 8 (wrap32 v) EmptyString ++ LF)%string.
Proof.
  change (kformat ("%08x" ++ LF) [v]) with (pad true 8 (render_x v) ++ LF)%string.
  unfold render_x.
  assert (H : pad true 8 (digits 16 8 (wrap32 v) EmptyString) =
              fixed_hex 8 (wrap32 v) EmptyString).
  { apply (pad_digits 8 (wrap32 v) EmptyString); [lia|].
    unfold wrap32. change (16 ^ Z.of_nat 8) with (2 ^ 32).
    apply Z.mod_pos_bound. lia. }
  rewrite H. reflexivity.
Qed.

Lemma kformat_d (v : Z) : kformat "%d" [v] = render_d v.
Proof.
  change (kformat "%d" [v]) with (pad false 0 (render_d v) ++ EmptyString)%string.
  rewrite append_empty. reflexivity.
Qed.

Lemma lower_hex_no_newline (s : string) :
  all_chars is_lower_hex s = true -> count_char newline s = 0%nat.
Proof.
  induction s as [|c s IH]; simpl; [reflexivity|].
  intros [Hc Hs]%andb_prop. rewrite (IH Hs).
  destruct (Ascii.eqb_spec c newline) as [->|_]; [discriminate Hc|reflexivity].
Qed.

Lemma output_of_boot_script (block v : Z) :
  output_of (boot_script block v) =
  ("Hello kernel land" ++ LF ++ fixed_hex 8 (wrap32 v) EmptyString ++ LF)%string.
Proof.
  unfold boot_script. cbn [output_of flat fst op_of].
  rewrite append_empty, kformat_hex8. reflexivity.
Qed.

Lemma output_of_worker_script (tid : Z) : output_of (worker_script tid) = render_d tid.
Proof.
  unfold worker_script. cbn [output_of flat fst op_of].
  rewrite append_empty. apply kformat_d.
Qed.

(** C10. What the two entry points hand to kprintf.  A boot in which every
    call came back puts out two lines: the greeting, and the loaded word as
    eight lower-case hexadecimal digits, zero-padded, each followed by a line
    feed; when the loaded word is the sentinel the second line reads
    abcdef12.  A released thread puts out the control-register value in
    decimal, with no line feed. *)
Theorem diagnostic_output {St} (h : handler St) (fuel : nat) (s : St) :
  (let r := run h fuel s kernel_main in
   (7 < fuel)%nat -> outcome_of r <> Blocked ->
   exists block v,
     trace r = boot_script block v /\
     output_of (trace r) =
       ("Hello kernel land" ++ LF ++ fixed_hex 8 (wrap32 v) EmptyString ++ LF)%string /\
     String.length (fixed_hex 8 (wrap32 v) EmptyString) = 8%nat /\
     all_chars is_lower_hex (fixed_hex 8 (wrap32 v) EmptyString) = true /\
     count_char newline (output_of (trace r)) = 2%nat /\
     (v = 0xabcdef12 ->
      output_of (trace r) = ("Hello kernel land" ++ LF ++ "abcdef12" ++ LF)%string)) /\
  (let r := run h fuel s thread_n_main in
   (2 < fuel)%nat -> outcome_of r <> Blocked ->
   exists tid,
     trace r = [ Ev (ReadControlReg 0) (Some tid); Ev (Kprintf "%d" [tid]) (Some tt) ] /\
     output_of (trace r) = render_d tid /\
     count_char newline (output_of (trace r)) = 0%nat /\
     (0 <= tid < 10 -> output_of (trace r) = String (digit_char tid) EmptyString)).
Proof.
  split.
  - intros r Hfuel Hnb. subst r.
    destruct (kernel_main_follows h fuel s) as (block & v & F).
    destruct (follows_complete _ _ _ F Hfuel Hnb) as [Htr _].
    exists block, v. rewrite Htr, output_of_boot_script.
    assert (Hhex : all_chars is_lower_hex (fixed_hex 8 (wrap32 v) EmptyString) = true)
      by (apply fixed_hex_chars; reflexivity).
    split; [reflexivity|]. split; [reflexivity|].
    split; [apply fixed_hex_length|]. split; [exact Hhex|]. split.
    + rewrite !count_char_append, (lower_hex_no_newline _ Hhex). reflexivity.
    + intros ->. reflexivity.
  - intros r Hfuel Hnb. subst r.
    destruct (thread_n_main_follows h fuel s) as (tid & F).
    destruct (follows_complete _ _ _ F Hfuel Hnb) as [Htr _].
    exists tid. rewrite Htr. fold (worker_script tid).
    rewrite output_of_worker_script.
    split; [reflexivity|]. split; [reflexivity|].
    split; [apply render_d_no_newline|apply render_d_small].
Qed.

Lemma diagnostic_output_witness :
  let h := oracle 0x10000 0xabcdef12 3 in
  (7 < 8)%nat /\
  outcome_of (run h 8 tt kernel_main) <> Blocked /\
  outcome_of (run h 8 tt thread_n_main) <> Blocked /\
  (exists block v,
     trace (run h 8 tt kernel_main) = boot_script block v /\
     count_char newline (output_of (trace (run h 8 tt kernel_main))) = 2%nat) /\
  (exists tid,
     output_of (trace (run h 8 tt thread_n_main)) = render_d tid).
Proof.
  intros h.
  assert (Hfuel : (7 < 8)%nat) by lia.
  assert (Hfuel' : (2 < 8)%nat) by lia.
  assert (Hnb : outcome_of (run h 8 tt kernel_main) <> Blocked) by discriminate.
  assert (Hnb' : outcome_of (run h 8 tt thread_n_main) <> Blocked) by discriminate.
  split; [exact Hfuel|]. split; [exact Hnb|]. split; [exact Hnb'|].
  destruct (diagnostic_output h 8 tt) as [Hboot Hworker].
  split.
  - destruct (Hboot Hfuel Hnb) as (block & v & Htr & _ & _ & _ & Hcount & _).
    exists block, v. split; [exact Htr|exact Hcount].
  - destruct (Hworker Hfuel' Hnb') as (tid & _ & Hout & _).
    exists tid. exact Hout.
Defined.

(** * Further properties of the two entry points *)





(** Every way of cutting a known list into a front, one entry and a rest. *)
Ltac splits H pre :=
  destruct pre as [|? pre]; simpl in H;
  [ first [discriminate H | injection H as <- <-]
  | first [discriminate H | (injection H as <- H; splits H pre)] ].

(** kmalloc is asked for one page of 0x1000 bytes (line 34), and only once
    vm_init and the greeting have come back (lines 29-31); no run asks a
    second time. *)
Theorem kmalloc_once_after_vm_init {St} (h : handler St) (fuel : nat) (s : St)
    (pre post : list entry) (e : entry) :
  trace (run h fuel s kernel_main) = pre ++ e :: post ->
  kind_of e = KKmalloc ->
  fst (flat e) = OpKmalloc 0x1000 /\
  pre = [ Ev VmInit (Some tt);
          Ev (Kprintf ("Hello kernel land" ++ LF)%string []) (Some tt) ] /\
  (forall e', In e' post -> kind_of e' <> KKmalloc).
Proof.
  intros Htr Hkind.
  destruct (kernel_main_follows h fuel s) as (block & v & F).
  revert F Htr. generalize (run h fuel s kernel_main). intros r F Htr.
  shapes F k Hshape; rewrite Hshape in Htr; splits Htr pre;
    try discriminate Hkind;
    (split; [reflexivity|]); (split; [reflexivity|]);
    intros e' Hin; simpl in Hin;
    repeat (destruct Hin as [<-|Hin]; [discriminate|]);
    contradiction Hin.
Qed.

Lemma kmalloc_once_after_vm_init_witness :
  let h := oracle 0x10000 0xabcdef12 0 in
  let pre := firstn 2 (boot_script 0x10000 0xabcdef12) in
  let e := Ev (Kmalloc 0x1000) (Some 0x10000) in
  let post := skipn 3 (boot_script 0x10000 0xabcdef12) in
  trace (run h 8 tt kernel_main) = pre ++ e :: post /\
  kind_of e = KKmalloc /\
  forall e', In e' post -> kind_of e' <> KKmalloc.
Proof.
  intros h pre e post.
  assert (Htr : trace (run h 8 tt kernel_main) = pre ++ e :: post) by reflexivity.
  assert (Hkind : kind_of e = KKmalloc) by reflexivity.
  split; [exact Htr|]. split; [exact Hkind|].
  destruct (kmalloc_once_after_vm_init h 8 tt pre post e Htr Hkind) as (_ & _ & H).
  exact H.
Defined.

(** The one load of kernel_main (line 37) reads the address kmalloc handed
    out, and only after the store of the sentinel to that address (line 36)
    has come back: no run reads memory the boot sequence has not written. *)
Theorem load_only_after_store {St} (h : handler St) (fuel : nat) (s : St)
    (pre post : list entry) (e : entry) (a : Z) :
  trace (run h fuel s kernel_main) = pre ++ e :: post ->
  fst (flat e) = OpLoad a ->
  In (Ev (Kmalloc 0x1000) (Some a)) pre /\
  In (Ev (Store a 0xabcdef12) (Some tt)) pre /\
  (forall e', In e' pre \/ In e' post -> kind_of e' <> KLoad).
Proof.
  intros Htr Hload.
  destruct (kernel_main_follows h fuel s) as (block & v & F).
  revert F Htr. generalize (run h fuel s kernel_main). intros r F Htr.
  shapes F k Hshape; rewrite Hshape in Htr; splits Htr pre;
    try discriminate Hload;
    simpl in Hload; injection Hload as <-;
    (split; [simpl; tauto|]); (split; [simpl; tauto|]);
    intros e' [Hin|Hin]; simpl in Hin;
    repeat (destruct Hin as [<-|Hin]; [discriminate|]);
    contradiction Hin.
Qed.

Lemma load_only_after_store_witness :
  let h := oracle 0x10000 0xabcdef12 0 in
  let pre := firstn 4 (boot_script 0x10000 0xabcdef12) in
  let e := Ev (Load 0x10000) (Some 0xabcdef12) in
  let post := skipn 5 (boot_script 0x10000 0xabcdef12) in
  trace (run h 8 tt kernel_main) = pre ++ e :: post /\
  fst (flat e) = OpLoad 0x10000 /\
  In (Ev (Store 0x10000 0xabcdef12) (Some tt)) pre.
Proof.
  intros h pre e post.
  assert (Htr : trace (run h 8 tt kernel_main) = pre ++ e :: post) by reflexivity.
  assert (Hload : fst (flat e) = OpLoad 0x10000) by reflexivity.
  split; [exact Htr|]. split; [exact Hload|].
  destruct (load_only_after_store h 8 tt pre post e 0x10000 Htr Hload) as (_ & H & _).
  exact H.
Defined.

(** The store of 0xffffffff to 0xffff0100 (line 40) is the last operation
    of kernel_main: the six operations before it have all come back when it
    is issued, both prints among them, and no operation follows it. *)
Theorem release_is_last {St} (h : handler St) (fuel : nat) (s : St)
    (pre post : list entry) (e : entry) :
  trace (run h fuel s kernel_main) = pre ++ e :: post ->
  fst (flat e) = OpStore 0xffff0100 0xffffffff ->
  post = [] /\
  exists block v,
    pre = [ Ev VmInit (Some tt);
            Ev (Kprintf ("Hello kernel land" ++ LF)%string []) (Some tt);
            Ev (Kmalloc 0x1000) (Some block);
            Ev (Store block 0xabcdef12) (Some tt);
            Ev (Load block) (Some v);
            Ev (Kprintf ("%08x" ++ LF)%string [v]) (Some tt) ].
Proof.
  intros Htr Hst.
  destruct (kernel_main_follows h fuel s) as (block & v & F).
  revert F Htr. generalize (run h fuel s kernel_main). intros r F Htr.
  shapes F k Hshape; rewrite Hshape in Htr; splits Htr pre;
    try discriminate Hst;
    (split; [reflexivity|exists block, v; reflexivity]).
Qed.

Lemma release_is_last_witness :
  let h := oracle 0x10000 0xabcdef12 0 in
  let pre := firstn 6 (boot_script 0x10000 0xabcdef12) in
  let e := Ev (Store 0xffff0100 0xffffffff) (Some tt) in
  trace (run h 20 tt kernel_main) = pre ++ e :: [] /\
  fst (flat e) = OpStore 0xffff0100 0xffffffff /\
  exists block v,
    pre = [ Ev VmInit (Some tt);
            Ev (Kprintf ("Hello kernel land" ++ LF)%string []) (Some tt);
            Ev (Kmalloc 0x1000) (Some block);
            Ev (Store block 0xabcdef12) (Some tt);
            Ev (Load block) (Some v);
            Ev (Kprintf ("%08x" ++ LF)%string [v]) (Some tt) ].
Proof.
  intros h pre e.
  assert (Htr : trace (run h 20 tt kernel_main) = pre ++ e :: []) by reflexivity.
  assert (Hst : fst (flat e) = OpStore 0xffff0100 0xffffffff) by reflexivity.
  split; [exact Htr|]. split; [exact Hst|].
  destruct (release_is_last h 20 tt pre [] e Htr Hst) as [_ H].
  exact H.
Defined.

(** The two entry points use disjoint services: kernel_main never reads a
    control register, and thread_n_main does nothing but read control
    register 0 and call kprintf with the format %d; it never calls vm_init or
    kmalloc and never stores or loads. *)
Theorem entry_points_stay_apart {St} (h : handler St) (fuel : nat) (s : St) :
  (forall e, In e (trace (run h fuel s kernel_main)) ->
     kind_of e <> KReadControlReg) /\
  (forall e, In e (trace (run h fuel s thread_n_main)) ->
     fst (flat e) = OpReadControlReg 0 \/
     exists tid, In (Ev (ReadControlReg 0) (Some tid)) (trace (run h fuel s thread_n_main)) /\
                 fst (flat e) = OpKprintf "%d" [tid]).
Proof.
  split.
  - destruct (kernel_main_follows h fuel s) as (block & v & F).
    revert F. generalize (run h fuel s kernel_main). intros r F e Hin.
    shapes F k Htr; rewrite Htr in Hin; simpl in Hin;
      repeat (destruct Hin as [<-|Hin]; [discriminate|]);
      contradiction Hin.
  - destruct (thread_n_main_follows h fuel s) as (tid & F).
    revert F. generalize (run h fuel s thread_n_main). intros r F e Hin.
    shapes F k Htr; rewrite Htr in Hin |- *; simpl in Hin;
      repeat (destruct Hin as [<-|Hin];
              [first [left; reflexivity
                     |right; exists tid; split; [simpl; tauto|reflexivity]]|]);
      contradiction Hin.
Qed.

(** ** The machine after a boot *)

Lemma store32_frame (m m' : machine) (a v : Z) :
  store32 m a v = Some m' ->
  (forall x, ~ (a <= x < a + 4) -> ram m' x = ram m x) /\
  (forall x, a <= x < a + 4 -> ram m x <> None) /\
  enabled m' = enabled m /\ creg m' = creg m.
Proof.
  unfold store32.
  destruct (ram m a) eqn:H0; [|discriminate].
  destruct (ram m (a + 1)) eqn:H1; [|discriminate].
  destruct (ram m (a + 2)) eqn:H2; [|discriminate].
  destruct (ram m (a + 3)) eqn:H3; [|discriminate].
  intros [= <-]. split; [|split; [|split; reflexivity]].
  - intros x Hx. rewrite !ram_poke.
    repeat match goal with
           | |- context [?y =? ?z] => destruct (Z.eqb_spec y z); try lia
           end.
    reflexivity.
  - intros x Hx.
    assert (Hc : x = a \/ x = a + 1 \/ x = a + 2 \/ x = a + 3) by lia.
    destruct Hc as [-> | [-> | [-> | ->]]]; congruence.
Qed.

(** On the machine, a boot in which vm_init came back and kmalloc handed out
    a mapped page of ordinary memory changes four bytes of memory and no
    more: the first word of the block, which then holds the sentinel (lines
    34-36).  The thread-enable register receives the mask 0xffffffff once
    (line 40), and the control registers are as kmalloc left them. *)
Theorem boot_changes_one_word (vm_init : machine -> option machine)
    (kmalloc : Z -> machine -> option (Z * machine))
    (m0 m1 m2 : machine) (p : Z) (fuel : nat) :
  vm_init m0 = Some m1 ->
  kmalloc 0x1000 (emit m1 (kformat ("Hello kernel land" ++ LF)%string [])) = Some (p, m2) ->
  mapped_block m2 p 0x1000 ->
  ram m2 thread_enable_reg = None ->
  (7 < fuel)%nat ->
  let mf := final (run (hw vm_init kmalloc) fuel m0 kernel_main) in
  load32 mf p = Some 0xabcdef12 /\
  (forall a, ~ (p <= a < p + 4) -> ram mf a = ram m2 a) /\
  enabled mf = enabled m2 ++ [0xffffffff] /\
  creg mf = creg m2.
Proof.
  intros Hvm Hk Hmap Hter Hfuel mf. subst mf.
  do 8 (destruct fuel as [|fuel]; [exfalso; lia|]). clear Hfuel.
  assert (Hmap4 : mapped_block m2 p 4) by (intros i Hi; apply Hmap; lia).
  destruct (store32_load32 m2 p 0xabcdef12 Hmap4) as (m3 & Hst & Hld & _ & _).
  change (wrap32 0xabcdef12) with 0xabcdef12 in Hld.
  destruct (store32_frame m2 m3 p 0xabcdef12 Hst) as (Hframe & Hblock & Hen & Hcr).
  assert (Hter3 : ram m3 thread_enable_reg = None).
  { rewrite Hframe; [exact Hter|]. intros Hin. exact (Hblock _ Hin Hter). }
  unfold kernel_main.
  rewrite run_call. cbn [hw]. rewrite Hvm. cbn [option_map].
  rewrite run_ret_bind, run_call. cbn [hw].
  rewrite run_ret_bind, run_call. cbn [hw]. rewrite Hk.
  rewrite run_ret_bind, run_call. cbn [hw]. rewrite Hst.
  rewrite run_ret_bind, run_call. cbn [hw]. rewrite Hld. cbn [option_map].
  rewrite run_ret_bind, run_call. cbn [hw].
  rewrite run_ret_bind, run_call. cbn [hw].
  set (m4 := emit m3 _).
  assert (Hst4 : store32 m4 0xffff0100 0xffffffff = None).
  { unfold store32. change (ram m4 0xffff0100) with (ram m3 thread_enable_reg).
    rewrite Hter3. reflexivity. }
  rewrite Hst4. change (0xffff0100 =? thread_enable_reg) with true. cbn iota.
  rewrite run_ret_bind.
  change (run (hw vm_init kmalloc) (S fuel) (release m4 0xffffffff) idle_loop)
    with (run (hw vm_init kmalloc) fuel (release m4 0xffffffff) idle_loop).
  rewrite idle_loop_spins. cbn [final issued].
  split; [exact Hld|]. split; [exact Hframe|].
  split; [cbn [enabled release emit m4]; unfold m4; cbn [enabled emit]; rewrite Hen; reflexivity|].
  exact Hcr.
Qed.

Lemma boot_changes_one_word_witness :
  let m0 := flat_machine 0x10000 0x11000 in
  let m2 := emit m0 (kformat ("Hello kernel land" ++ LF)%string []) in
  let mf := final (run (hw vm_init_ok (kmalloc_at 0x10000)) 8 m0 kernel_main) in
  vm_init_ok m0 = Some m0 /\
  kmalloc_at 0x10000 0x1000 m2 = Some (0x10000, m2) /\
  mapped_block m2 0x10000 0x1000 /\
  ram m2 thread_enable_reg = None /\
  (7 < 8)%nat /\
  enabled mf = [0xffffffff].
Proof.
  intros m0 m2 mf.
  assert (Hvm : vm_init_ok m0 = Some m0) by reflexivity.
  assert (Hk : kmalloc_at 0x10000 0x1000 m2 = Some (0x10000, m2)) by (vm_compute; reflexivity).
  assert (Hmap : mapped_block m2 0x10000 0x1000) by (apply flat_machine_mapped; lia).
  assert (Hter : ram m2 thread_enable_reg = None) by reflexivity.
  assert (Hfuel : (7 < 8)%nat) by lia.
  split; [exact Hvm|]. split; [exact Hk|]. split; [exact Hmap|].
  split; [exact Hter|]. split; [exact Hfuel|].
  destruct (boot_changes_one_word vm_init_ok (kmalloc_at 0x10000) m0 m0 m2 0x10000 8
              Hvm Hk Hmap Hter Hfuel) as (_ & _ & H & _).
  exact H.
Defined.
